(** * A shallow embedding of [flaskconmysql/app.py]

    The Flask application has three routes ([index], [add_post],
    [add_user]) over a relational store with two tables, [user] and
    [post].  The store is modelled as two lists of rows (inserts append
    a row); a request handler is a function in a small state-and-error
    monad over the store.  The environment of a request supplies the
    value returned by [uuid.uuid4()] and by [date.today()]. *)

From Stdlib Require Import String List Bool Arith Lia Permutation.
Import ListNotations.
Open Scope string_scope.
Open Scope list_scope.

(** ** Data model (rows of the [user] and [post] tables) *)

Record date := mkDate { year : nat; month : nat; day : nat }.

Record User := mkUser {
  user_id_of : string;   (* User.id *)
  username : string;
  email : string
}.

Record Post := mkPost {
  post_id : string;      (* Post.id *)
  user_id : string;      (* Post.user_id, foreign key to User.id *)
  title : string;
  content : string;
  created_at : date
}.

Record store := mkStore { users : list User; posts : list Post }.

Definition empty_store : store := mkStore [] [].

(** ** Requests, responses, errors *)

Inductive method := GET | POST.

Record request := mkRequest {
  req_method : method;
  req_path : string;
  req_form : list (string * string)   (* request.form, a MultiDict *)
}.

(** What a handler hands back to Flask. *)
Inductive response :=
  | RenderIndex (posts : list (Post * User))   (* render_template('index.html', posts=...) *)
  | RenderAddPost                               (* render_template('add_post.html') *)
  | Redirect (location : string)                (* redirect(url_for(...)) *)
  | Text (body : string).                       (* a plain string return value *)

Inductive error :=
  | BadRequestKeyError (key : string)   (* request.form[key] with key missing: 400 *)
  | StorageError                        (* the commit is refused by the database: 500 *)
  | NotFound                            (* no route: 404 *)
  | MethodNotAllowed.                   (* route without that method: 405 *)

Inductive result (A : Type) :=
  | Ok (a : A)
  | Err (e : error).
Arguments Ok {A} a.
Arguments Err {A} e.

(** Values the handlers read from the outside world. *)
Record env := mkEnv {
  uuid4 : string;   (* str(uuid.uuid4()) *)
  today : date      (* date.today() *)
}.

(** ** The request monad: state passing over the store, with errors.
    A failing step leaves the store as it was when it failed: each
    [db.session.commit()] is its own transaction, and a refused commit
    is rolled back. *)

Definition M (A : Type) := store -> result A * store.

Definition ret {A} (a : A) : M A := fun s => (Ok a, s).

Definition bind {A B} (m : M A) (k : A -> M B) : M B :=
  fun s => match m s with
           | (Ok a, s') => k a s'
           | (Err e, s') => (Err e, s')
           end.

Definition throw {A} (e : error) : M A := fun s => (Err e, s).

Definition get_store : M store := fun s => (Ok s, s).

Notation "x <- m ;; k" := (bind m (fun x => k))
  (at level 61, m at next level, right associativity).

(** ** The persistence layer *)

(** [request.form[key]]: the first value bound to [key]; a missing key
    raises [BadRequestKeyError]. *)
Fixpoint form_lookup (form : list (string * string)) (key : string)
  : option string :=
  match form with
  | [] => None
  | (k, v) :: rest => if String.eqb k key then Some v else form_lookup rest key
  end.

Definition request_form (form : list (string * string)) (key : string)
  : M string :=
  match form_lookup form key with
  | Some v => ret v
  | None => throw (BadRequestKeyError key)
  end.

Definition user_ids (s : store) : list string := map user_id_of (users s).
Definition usernames (s : store) : list string := map username (users s).
Definition post_ids (s : store) : list string := map post_id (posts s).

Definition memb (x : string) (l : list string) : bool :=
  existsb (String.eqb x) l.

(** Modelled from the spec: the table constraints declared in the
    missing [models.py].  [User.id] is a primary key and [User.username]
    is unique ("createUser ... fails with StorageError on duplicate
    username constraint violation"); [Post.id] is a primary key and
    [Post.user_id] a foreign key to [User.id] ("createPost ... fails with
    StorageError on constraint violation (e.g., unknown userId)").
    [db.session.add(u); db.session.commit()] inserts the row or fails. *)
Definition commit_user (u : User) : M unit :=
  fun s =>
    if memb (user_id_of u) (user_ids s) || memb (username u) (usernames s)
    then (Err StorageError, s)
    else (Ok tt, mkStore (users s ++ [u]) (posts s)).

Definition commit_post (p : Post) : M unit :=
  fun s =>
    if memb (post_id p) (post_ids s) || negb (memb (user_id p) (user_ids s))
    then (Err StorageError, s)
    else (Ok tt, mkStore (users s) (posts s ++ [p])).

(** [Post.query.join(User).all()]: an inner join on
    [Post.user_id = User.id]. *)
Definition join_posts_users (s : store) : list (Post * User) :=
  flat_map (fun p => map (fun u => (p, u))
                         (filter (fun u => String.eqb (user_id p) (user_id_of u))
                                 (users s)))
           (posts s).

(** [User.query.filter_by(username=name).first()] *)
Definition first_user_by_username (s : store) (name : string) : option User :=
  find (fun u => String.eqb (username u) name) (users s).

(** ** The routes *)

(** [@app.route('/')] *)
Definition index : M response :=
  s <- get_store ;;
  ret (RenderIndex (join_posts_users s)).

Definition hardcoded_user_id : string := "aec92dd8-79dd-4b22-9deb-a2af00d568c8".

(** [@app.route('/add-post', methods=['GET', 'POST'])] *)
Definition add_post (e : env) (m : method) (form : list (string * string))
  : M response :=
  match m with
  | POST =>
      title <- request_form form "title" ;;
      content <- request_form form "content" ;;
      let new_post := mkPost (uuid4 e) hardcoded_user_id title content (today e) in
      _ <- commit_post new_post ;;
      ret (Redirect "/")
  | GET => ret RenderAddPost
  end.

(** [@app.route('/add-user')] *)
Definition add_user (e : env) : M response :=
  s <- get_store ;;
  match first_user_by_username s "rishabh" with
  | None =>
      let new_user := mkUser (uuid4 e) "rishabh" "rishabh@example.com" in
      _ <- commit_user new_user ;;
      ret (Text ("User " ++ username new_user ++ " added."))
  | Some _ => ret (Text "User already exists.")
  end.

(** Flask's URL dispatch; routes without [methods] accept only GET. *)
Definition handle (e : env) (r : request) : M response :=
  if String.eqb (req_path r) "/" then
    match req_method r with GET => index | POST => throw MethodNotAllowed end
  else if String.eqb (req_path r) "/add-post" then
    add_post e (req_method r) (req_form r)
  else if String.eqb (req_path r) "/add-user" then
    match req_method r with GET => add_user e | POST => throw MethodNotAllowed end
  else throw NotFound.

(** ** Observations on the store *)

(** The listing handed to [index.html] by a response, if any. *)
Definition listing_of (r : result response) : list (Post * User) :=
  match r with
  | Ok (RenderIndex l) => l
  | _ => []
  end.

(** What a [GET /] would list in store [s]. *)
Definition get_listing (s : store) : list (Post * User) :=
  listing_of (fst (index s)).

Fixpoint nodupb (l : list string) : bool :=
  match l with
  | [] => true
  | x :: rest => negb (memb x rest) && nodupb rest
  end.

(** The table constraints of the schema hold in [s]: primary keys and
    the username are unique, and every [Post.user_id] references a row
    of [user]. *)
Definition wf_storeb (s : store) : bool :=
  nodupb (user_ids s) && nodupb (usernames s) && nodupb (post_ids s)
  && forallb (fun p => memb (user_id p) (user_ids s)) (posts s).

Definition count_username (s : store) (name : string) : nat :=
  length (filter (fun u => String.eqb (username u) name) (users s)).

(** [s'] keeps every row of [s], unchanged and in place, and only adds
    rows. *)
Definition extends (s s' : store) : Prop :=
  exists us ps, users s' = users s ++ us /\ posts s' = posts s ++ ps.

Definition add_user_request : request := mkRequest GET "/add-user" [].

Definition post_request (form : list (string * string)) : request :=
  mkRequest POST "/add-post" form.

Definition env0 : env := mkEnv "0b6f3c1e-4a8e-4c55-9d8a-1f2e3d4c5b6a" (mkDate 2024 5 1).
Definition env1 : env := mkEnv "7d1c2b3a-9e8f-4a7b-8c6d-5e4f3a2b1c0d" (mkDate 2024 5 1).

Definition store_with_rishabh : store :=
  mkStore [mkUser "1f0e9d8c-7b6a-4594-8372-615049382716" "rishabh" "rishabh@example.com"] [].

Definition hello_world_form : list (string * string) :=
  [("title", "Hello"); ("content", "World")].

Definition owner_store : store :=
  mkStore [mkUser hardcoded_user_id "rishabh" "rishabh@example.com"] [].

Definition new_rishabh (e : env) : User :=
  mkUser (uuid4 e) "rishabh" "rishabh@example.com".

Definition orphan_post : Post :=
  mkPost "5c4b3a29-1807-4f6e-9d5c-4b3a29180706" "no-such-user" "Hello" "World" (mkDate 2024 5 1).

(** A store holding a post whose owner id references no [User]. *)
Definition orphan_store : store := mkStore [] [orphan_post].

Definition owned_post : Post :=
  mkPost "5c4b3a29-1807-4f6e-9d5c-4b3a29180706" hardcoded_user_id "Hello" "World" (mkDate 2024 5 1).

Definition owned_store : store :=
  mkStore [mkUser hardcoded_user_id "rishabh" "rishabh@example.com"] [owned_post].

Example add_user_twice_from_empty :
  fst (handle env0 add_user_request empty_store) = Ok (Text "User rishabh added.")
  /\ fst (handle env1 add_user_request (snd (handle env0 add_user_request empty_store)))
     = Ok (Text "User already exists.").
Proof. split; reflexivity. Qed.

Example add_post_without_owner :
  handle env0 (post_request [("title", "Hello"); ("content", "World")]) empty_store
  = (Err StorageError, empty_store).
Proof. reflexivity. Qed.

(** A run of the application: the requests [steps] handled one after
    the other from store [s], with the responses they got and the final
    store. *)
Fixpoint run (steps : list (env * request)) (s : store)
  : list (result response) * store :=
  match steps with
  | [] => ([], s)
  | (e, r) :: rest =>
      let (res, s1) := handle e r s in
      let (rs, s2) := run rest s1 in
      (res :: rs, s2)
  end.

Definition is_redirect (r : result response) : bool :=
  match r with Ok (Redirect _) => true | _ => false end.

Definition is_user_added (r : result response) : bool :=
  match r with
  | Ok (Text b) => String.eqb b "User rishabh added."
  | _ => false
  end.

Definition count_true {A} (f : A -> bool) (l : list A) : nat := length (filter f l).

(** What every store reached from the empty store satisfies. *)
Definition reachable_inv (s : store) : Prop :=
  wf_storeb s = true
  /\ (forall p, In p (posts s) -> user_id p = hardcoded_user_id)
  /\ length (users s) <= 1
  /\ (forall u, In u (users s) -> username u = "rishabh" /\ email u = "rishabh@example.com").

(** The request targets one of the three routes of [app.py] (and not,
    for instance, the [/static/<path:filename>] route that Flask adds by
    itself). *)
Definition app_route_request (r : request) : bool :=
  String.eqb (req_path r) "/" || String.eqb (req_path r) "/add-post"
  || String.eqb (req_path r) "/add-user".

(** A run in which [uuid.uuid4()] happens to give the "rishabh" user
    the hard-coded owner id, so that a post can then be stored. *)
Definition env_owner : env := mkEnv hardcoded_user_id (mkDate 2024 5 1).

Definition owner_run : list (env * request) :=
  [(env_owner, add_user_request); (env0, post_request hello_world_form)].

Definition owner_run_post : Post :=
  mkPost (uuid4 env0) hardcoded_user_id "Hello" "World" (today env0).

(** ** General lemmas *)

Lemma memb_In (x : string) (l : list string) : memb x l = true <-> In x l.
Proof.
  unfold memb; rewrite existsb_exists; split.
  - intros [y [Hy Heq]]. apply String.eqb_eq in Heq; subst; exact Hy.
  - intros H; exists x; split; [exact H | apply String.eqb_refl].
Qed.

Lemma memb_false (x : string) (l : list string) : memb x l = false <-> ~ In x l.
Proof.
  rewrite <- memb_In; destruct (memb x l); split; congruence.
Qed.

Lemma nodupb_NoDup (l : list string) : nodupb l = true <-> NoDup l.
Proof.
  induction l as [|x l IH]; simpl.
  - split; auto using NoDup_nil.
  - rewrite andb_true_iff, negb_true_iff, memb_false, IH; split.
    + intros [H1 H2]; constructor; assumption.
    + intros H; inversion H; subst; split; assumption.
Qed.

Lemma extends_refl (s : store) : extends s s.
Proof. exists [], []; rewrite !app_nil_r; split; reflexivity. Qed.

Lemma commit_user_extends (u : User) (s : store) :
  extends s (snd (commit_user u s)).
Proof.
  unfold commit_user.
  destruct (_ || _); simpl; [apply extends_refl | exists [u], []].
  split; [reflexivity | symmetry; apply app_nil_r].
Qed.

Lemma commit_post_extends (p : Post) (s : store) :
  extends s (snd (commit_post p s)).
Proof.
  unfold commit_post.
  destruct (_ || _); simpl; [apply extends_refl | exists [], [p]].
  split; [symmetry; apply app_nil_r | reflexivity].
Qed.

(** Reading the form never touches the store. *)
Lemma request_form_store (form : list (string * string)) (k : string) (s : store) :
  snd (request_form form k s) = s.
Proof. unfold request_form; destruct (form_lookup form k); reflexivity. Qed.

Lemma request_form_found (form : list (string * string)) (k v : string) (s : store) :
  form_lookup form k = Some v -> request_form form k s = (Ok v, s).
Proof. unfold request_form; intros ->; reflexivity. Qed.

Lemma request_form_missing (form : list (string * string)) (k : string) (s : store) :
  form_lookup form k = None -> request_form form k s = (Err (BadRequestKeyError k), s).
Proof. unfold request_form; intros ->; reflexivity. Qed.


(** ** Claims *)

(** C5: no route updates or deletes a row.  Whatever the request, the
    store after handling it keeps every [User] and [Post] row of the
    store before, unchanged and in place; rows are only ever added. *)
Theorem handle_only_inserts (e : env) (r : request) (s : store) :
  extends s (snd (handle e r s)).
Proof.
  destruct r as [m path form]; unfold handle; simpl.
  destruct (String.eqb path "/");
    [destruct m; apply extends_refl |].
  destruct (String.eqb path "/add-post").
  - destruct m; [apply extends_refl |].
    unfold add_post, bind, ret.
    destruct (request_form form "title" s) as [[t|er] s1] eqn:Ht;
      pose proof (request_form_store form "title" s) as Hs1;
      rewrite Ht in Hs1; simpl in Hs1; subst s1; [| apply extends_refl].
    destruct (request_form form "content" s) as [[c|er] s2] eqn:Hc;
      pose proof (request_form_store form "content" s) as Hs2;
      rewrite Hc in Hs2; simpl in Hs2; subst s2; [| apply extends_refl].
    pose proof (commit_post_extends
                  (mkPost (uuid4 e) hardcoded_user_id t c (today e)) s) as Hx.
    destruct (commit_post _ s) as [[[]|er] s3]; exact Hx.
  - destruct (String.eqb path "/add-user"); [| apply extends_refl].
    destruct m; [| apply extends_refl].
    unfold add_user, bind, ret, get_store.
    destruct (first_user_by_username s "rishabh"); [apply extends_refl |].
    pose proof (commit_user_extends
                  (mkUser (uuid4 e) "rishabh" "rishabh@example.com") s) as Hx.
    destruct (commit_user _ s) as [[[]|er] s3]; exact Hx.
Qed.

Lemma first_user_by_username_some (s : store) (name : string) :
  memb name (usernames s) = true -> exists u, first_user_by_username s name = Some u.
Proof.
  unfold first_user_by_username, usernames; rewrite memb_In, in_map_iff.
  intros [u [Hu Hin]].
  destruct (find (fun u => String.eqb (username u) name) (users s)) as [v|] eqn:Hf.
  - exists v; reflexivity.
  - exfalso; eapply find_none in Hf; [| exact Hin].
    rewrite Hu, String.eqb_refl in Hf; discriminate.
Qed.

Lemma add_user_when_present (e : env) (s : store) :
  memb "rishabh" (usernames s) = true ->
  handle e add_user_request s = (Ok (Text "User already exists."), s).
Proof.
  intros Hexists.
  destruct (first_user_by_username_some s "rishabh" Hexists) as [u Hu].
  unfold handle, add_user_request; simpl.
  unfold add_user, bind, get_store, ret; rewrite Hu; reflexivity.
Qed.

(** C6: when a [User] named "rishabh" is in the store, [GET /add-user]
    answers "User already exists." and the store is left exactly as it
    was. *)
Theorem add_user_existing_no_effect (e : env) (s : store)
  (Hexists : memb "rishabh" (usernames s) = true) :
  handle e add_user_request s = (Ok (Text "User already exists."), s).
Proof. exact (add_user_when_present e s Hexists). Qed.

Lemma add_user_existing_no_effect_witness :
  memb "rishabh" (usernames store_with_rishabh) = true
  /\ handle env0 add_user_request store_with_rishabh
     = (Ok (Text "User already exists."), store_with_rishabh).
Proof.
  split; [reflexivity |].
  apply (add_user_existing_no_effect env0 store_with_rishabh); reflexivity.
Defined.

(** C8: [GET /] and [GET /add-post] are read-only: for every store and
    form, handling either request leaves both tables as they were. *)
Theorem get_routes_read_only (e : env) (s : store) (form : list (string * string)) :
  snd (handle e (mkRequest GET "/" form) s) = s
  /\ snd (handle e (mkRequest GET "/add-post" form) s) = s.
Proof. split; reflexivity. Qed.

(** C9: a [POST /add-post] missing the [title] or the [content] field
    leaves the store exactly unchanged: both fields are read before the
    commit. *)
Theorem add_post_missing_field_no_effect (e : env) (s : store)
  (form : list (string * string))
  (Hmissing : form_lookup form "title" = None \/ form_lookup form "content" = None) :
  snd (handle e (post_request form) s) = s.
Proof.
  unfold handle, post_request; simpl; unfold add_post, bind.
  destruct (form_lookup form "title") as [t|] eqn:Ht.
  - rewrite (request_form_found form "title" t s Ht).
    destruct Hmissing as [H | H]; [congruence |].
    rewrite (request_form_missing form "content" s H); reflexivity.
  - rewrite (request_form_missing form "title" s Ht); reflexivity.
Qed.

Lemma add_post_missing_field_no_effect_witness :
  (form_lookup [("title", "Hello")] "title" = None
   \/ form_lookup [("title", "Hello")] "content" = None)
  /\ snd (handle env0 (post_request [("title", "Hello")]) store_with_rishabh)
     = store_with_rishabh.
Proof.
  assert (H : form_lookup [("title", "Hello")] "title" = None
              \/ form_lookup [("title", "Hello")] "content" = None)
    by (right; reflexivity).
  split; [exact H |].
  apply (add_post_missing_field_no_effect env0 store_with_rishabh _ H).
Defined.

(** The [POST /add-post] path once both fields are read. *)
Lemma add_post_fields_present (e : env) (s : store) (form : list (string * string))
  (t c : string) :
  form_lookup form "title" = Some t -> form_lookup form "content" = Some c ->
  handle e (post_request form) s =
  (if memb (uuid4 e) (post_ids s) || negb (memb hardcoded_user_id (user_ids s))
   then (Err StorageError, s)
   else (Ok (Redirect "/"),
         mkStore (users s) (posts s ++ [mkPost (uuid4 e) hardcoded_user_id t c (today e)]))).
Proof.
  intros Ht Hc.
  unfold handle, post_request; simpl; unfold add_post, bind.
  rewrite (request_form_found form "title" t s Ht).
  rewrite (request_form_found form "content" c s Hc).
  unfold commit_post; simpl.
  destruct (_ || _); reflexivity.
Qed.

Lemma add_post_missing_field (e : env) (s : store) (form : list (string * string)) :
  form_lookup form "title" = None \/ form_lookup form "content" = None ->
  exists k, handle e (post_request form) s = (Err (BadRequestKeyError k), s).
Proof.
  intros Hmissing.
  unfold handle, post_request; simpl; unfold add_post, bind.
  destruct (form_lookup form "title") as [t|] eqn:Ht.
  - rewrite (request_form_found form "title" t s Ht).
    destruct Hmissing as [H | H]; [congruence |].
    rewrite (request_form_missing form "content" s H); eexists; reflexivity.
  - rewrite (request_form_missing form "title" s Ht); eexists; reflexivity.
Qed.

(** C7: [POST /add-post] fails with a request-format error
    ([BadRequestKeyError]) exactly when [title] or [content] is missing
    from the form, and then no post is stored and no redirect is
    returned. *)
Theorem add_post_format_error_iff (e : env) (s : store) (form : list (string * string)) :
  ((exists k, fst (handle e (post_request form) s) = Err (BadRequestKeyError k))
   <-> (form_lookup form "title" = None \/ form_lookup form "content" = None))
  /\ ((form_lookup form "title" = None \/ form_lookup form "content" = None) ->
      snd (handle e (post_request form) s) = s
      /\ forall loc, fst (handle e (post_request form) s) <> Ok (Redirect loc)).
Proof.
  split; [split |].
  - intros [k Hk].
    destruct (form_lookup form "title") as [t|] eqn:Ht; [| left; reflexivity].
    destruct (form_lookup form "content") as [c|] eqn:Hc; [| right; reflexivity].
    exfalso; rewrite (add_post_fields_present e s form t c Ht Hc) in Hk.
    destruct (_ || _); discriminate.
  - intros H; destruct (add_post_missing_field e s form H) as [k Hk].
    exists k; rewrite Hk; reflexivity.
  - intros H; destruct (add_post_missing_field e s form H) as [k Hk].
    rewrite Hk; split; [reflexivity | discriminate].
Qed.

Lemma add_post_format_error_iff_witness :
  ((exists k, fst (handle env0 (post_request [("content", "World")]) empty_store)
              = Err (BadRequestKeyError k))
   <-> (form_lookup [("content", "World")] "title" = None
        \/ form_lookup [("content", "World")] "content" = None))
  /\ snd (handle env0 (post_request [("content", "World")]) empty_store) = empty_store.
Proof.
  pose proof (add_post_format_error_iff env0 empty_store [("content", "World")]) as [H1 H2].
  split; [exact H1 |].
  apply H2; left; reflexivity.
Defined.

Lemma join_posts_users_In (s : store) (p : Post) (u : User) :
  In (p, u) (join_posts_users s)
  <-> In p (posts s) /\ In u (users s) /\ user_id_of u = user_id p.
Proof.
  unfold join_posts_users; rewrite in_flat_map; split.
  - intros [p' [Hp' Hin]].
    apply in_map_iff in Hin as [u' [Heq Hu']].
    injection Heq as -> ->.
    apply filter_In in Hu' as [Hu' Hid].
    apply String.eqb_eq in Hid; auto.
  - intros [Hp [Hu Hid]].
    exists p; split; [exact Hp |].
    apply in_map_iff; exists u; split; [reflexivity |].
    apply filter_In; split; [exact Hu |].
    rewrite Hid; apply String.eqb_refl.
Qed.

Lemma memb_user_ids (s : store) (id : string) :
  memb id (user_ids s) = true <-> exists u, In u (users s) /\ user_id_of u = id.
Proof.
  unfold user_ids; rewrite memb_In, in_map_iff.
  split; intros [u [H1 H2]]; exists u; split; assumption.
Qed.

(** C4, as stated, fails: in a store with no [User] whose id is the
    hard-coded owner id (here the empty store, as in the spec's own
    scenario), the commit of the new post violates the foreign key, the
    request fails with a storage error, nothing is persisted and no
    redirect is returned. *)
Lemma add_post_fixed_owner_counterexample :
  handle env0 (post_request hello_world_form) empty_store = (Err StorageError, empty_store).
Proof. reflexivity. Qed.

(** C4 (amended): a [POST /add-post] carrying [title] and [content]
    builds a post owned by the fixed id
    'aec92dd8-79dd-4b22-9deb-a2af00d568c8' dated [date.today()].  When a
    [User] with that id exists (and the generated uuid is unused) exactly
    this post is appended and the answer is a redirect to "/"; when no
    such [User] exists the commit is refused, the store is unchanged and
    the request fails with a storage error. *)
Theorem add_post_fixed_owner (e : env) (s : store) (form : list (string * string))
  (t c : string)
  (Ht : form_lookup form "title" = Some t)
  (Hc : form_lookup form "content" = Some c) :
  (memb hardcoded_user_id (user_ids s) = true -> memb (uuid4 e) (post_ids s) = false ->
   handle e (post_request form) s =
   (Ok (Redirect "/"),
    mkStore (users s) (posts s ++ [mkPost (uuid4 e) hardcoded_user_id t c (today e)])))
  /\ (memb hardcoded_user_id (user_ids s) = false ->
      handle e (post_request form) s = (Err StorageError, s)).
Proof.
  rewrite (add_post_fields_present e s form t c Ht Hc); split.
  - intros Howner Hfresh; rewrite Howner, Hfresh; reflexivity.
  - intros Hno; rewrite Hno, orb_true_r; reflexivity.
Qed.

Lemma add_post_fixed_owner_witness :
  handle env0 (post_request hello_world_form) owner_store =
  (Ok (Redirect "/"),
   mkStore (users owner_store)
     (posts owner_store ++ [mkPost (uuid4 env0) hardcoded_user_id "Hello" "World" (today env0)]))
  /\ handle env0 (post_request hello_world_form) empty_store = (Err StorageError, empty_store).
Proof.
  split.
  - apply (proj1 (add_post_fixed_owner env0 owner_store hello_world_form "Hello" "World"
                    eq_refl eq_refl)); reflexivity.
  - apply (proj2 (add_post_fixed_owner env0 empty_store hello_world_form "Hello" "World"
                    eq_refl eq_refl)); reflexivity.
Defined.

(** C10, as stated, fails: even empty [title] and [content] are not
    rejected by any check on their content, but the request is not
    accepted either when no [User] has the hard-coded owner id: the
    commit fails and nothing is persisted. *)
Lemma add_post_empty_fields_counterexample :
  handle env0 (post_request [("title", ""); ("content", "")]) empty_store
  = (Err StorageError, empty_store).
Proof. reflexivity. Qed.

(** C10 (amended): [POST /add-post] does no check on the field values:
    the response and the success of the commit never depend on [title]
    and [content]; and when the [User] with the fixed owner id exists
    (and the generated uuid is unused), any [title] and [content],
    empty strings included, are stored verbatim. *)
Theorem add_post_no_content_validation (e : env) (s : store) (t c : string) :
  (memb hardcoded_user_id (user_ids s) = true -> memb (uuid4 e) (post_ids s) = false ->
   handle e (post_request [("title", t); ("content", c)]) s =
   (Ok (Redirect "/"),
    mkStore (users s) (posts s ++ [mkPost (uuid4 e) hardcoded_user_id t c (today e)])))
  /\ (memb hardcoded_user_id (user_ids s) = false ->
      handle e (post_request [("title", t); ("content", c)]) s = (Err StorageError, s))
  /\ forall s' t' c' t'' c'',
       fst (handle e (post_request [("title", t'); ("content", c')]) s')
       = fst (handle e (post_request [("title", t''); ("content", c'')]) s').
Proof.
  rewrite (add_post_fields_present e s [("title", t); ("content", c)] t c eq_refl eq_refl).
  split; [| split].
  - intros Howner Hfresh; rewrite Howner, Hfresh; reflexivity.
  - intros Hno; rewrite Hno, orb_true_r; reflexivity.
  - intros s' t' c' t'' c''.
    rewrite (add_post_fields_present e s' [("title", t'); ("content", c')] t' c' eq_refl eq_refl).
    rewrite (add_post_fields_present e s' [("title", t''); ("content", c'')] t'' c'' eq_refl eq_refl).
    destruct (_ || _); reflexivity.
Qed.

Lemma add_post_no_content_validation_witness :
  handle env0 (post_request [("title", ""); ("content", "")]) owner_store =
  (Ok (Redirect "/"),
   mkStore (users owner_store)
     (posts owner_store ++ [mkPost (uuid4 env0) hardcoded_user_id "" "" (today env0)]))
  /\ handle env0 (post_request [("title", ""); ("content", "")]) empty_store
     = (Err StorageError, empty_store).
Proof.
  split.
  - apply (proj1 (add_post_no_content_validation env0 owner_store "" "")); reflexivity.
  - apply (proj1 (proj2 (add_post_no_content_validation env0 empty_store "" ""))).
    reflexivity.
Defined.

(** C1, as stated, fails: after [POST /add-post] with title "Hello" and
    content "World" on the empty store, [GET /] lists no such post (no
    [User] holds the hard-coded owner id, so the post is never stored). *)
Lemma add_post_then_index_counterexample :
  ~ exists p u,
      In (p, u) (get_listing (snd (handle env0 (post_request hello_world_form) empty_store)))
      /\ title p = "Hello" /\ content p = "World".
Proof. vm_compute. intros [p [u [[] _]]]. Qed.

(** C1 (amended): when a [User] with the hard-coded owner id exists
    (and the generated uuid is unused), after a [POST /add-post] with
    [title] t and [content] c a [GET /] lists a post with title t and
    content c, paired with that [User]. *)
Theorem add_post_then_index_lists (e : env) (s : store) (form : list (string * string))
  (t c : string)
  (Ht : form_lookup form "title" = Some t)
  (Hc : form_lookup form "content" = Some c) :
  (memb hardcoded_user_id (user_ids s) = true -> memb (uuid4 e) (post_ids s) = false ->
   exists p u,
     In (p, u) (get_listing (snd (handle e (post_request form) s)))
     /\ title p = t /\ content p = c /\ user_id_of u = hardcoded_user_id)
  /\ (memb hardcoded_user_id (user_ids s) = false ->
      snd (handle e (post_request form) s) = s
      /\ ~ exists p u,
            In (p, u) (get_listing (snd (handle e (post_request form) s)))
            /\ user_id p = hardcoded_user_id).
Proof.
  rewrite (add_post_fields_present e s form t c Ht Hc); split.
  - intros Howner Hfresh; rewrite Howner, Hfresh; simpl.
    destruct (proj1 (memb_user_ids s hardcoded_user_id) Howner) as [u [Hu Hid]].
    exists (mkPost (uuid4 e) hardcoded_user_id t c (today e)), u.
    unfold get_listing, index, bind, get_store, ret; simpl.
    rewrite join_posts_users_In; simpl.
    repeat split; auto.
    apply in_or_app; right; left; reflexivity.
  - intros Hno; rewrite Hno, orb_true_r; simpl; split; [reflexivity |].
    intros [p [u [Hin Hid]]].
    unfold get_listing, index, bind, get_store, ret in Hin; simpl in Hin.
    apply join_posts_users_In in Hin as [_ [Hu Huid]].
    assert (Hyes : memb hardcoded_user_id (user_ids s) = true)
      by (apply memb_user_ids; exists u; split; congruence).
    congruence.
Qed.

Lemma add_post_then_index_lists_witness :
  (exists p u,
     In (p, u) (get_listing (snd (handle env0 (post_request hello_world_form) owner_store)))
     /\ title p = "Hello" /\ content p = "World" /\ user_id_of u = hardcoded_user_id)
  /\ snd (handle env0 (post_request hello_world_form) store_with_rishabh) = store_with_rishabh.
Proof.
  split.
  - apply (proj1 (add_post_then_index_lists env0 owner_store hello_world_form "Hello" "World"
                    eq_refl eq_refl)); reflexivity.
  - apply (proj2 (add_post_then_index_lists env0 store_with_rishabh hello_world_form
                    "Hello" "World" eq_refl eq_refl)); reflexivity.
Defined.

Lemma first_user_by_username_none (s : store) (name : string) :
  memb name (usernames s) = false -> first_user_by_username s name = None.
Proof.
  intros Hno; unfold first_user_by_username.
  destruct (find _ (users s)) as [u|] eqn:Hf; [exfalso | reflexivity].
  apply find_some in Hf as [Hin Hname]; apply String.eqb_eq in Hname.
  apply memb_false in Hno; apply Hno.
  unfold usernames; apply in_map_iff; exists u; auto.
Qed.

Lemma count_username_absent (l : list User) (name : string) :
  ~ In name (map username l) ->
  filter (fun u => String.eqb (username u) name) l = [].
Proof.
  induction l as [|u l IH]; simpl; intros Hno; [reflexivity |].
  destruct (String.eqb (username u) name) eqn:Hu.
  - apply String.eqb_eq in Hu; tauto.
  - apply IH; tauto.
Qed.

Lemma count_username_unique (l : list User) (name : string) :
  NoDup (map username l) -> In name (map username l) ->
  length (filter (fun u => String.eqb (username u) name) l) = 1.
Proof.
  induction l as [|u l IH]; simpl; intros Hnd Hin; [contradiction |].
  inversion Hnd as [|x y Hnotin Hnd']; subst.
  destruct (String.eqb (username u) name) eqn:Hu.
  - apply String.eqb_eq in Hu; subst name.
    simpl; rewrite count_username_absent; auto.
  - apply IH; auto.
    destruct Hin as [Heq | Hin]; [| exact Hin].
    rewrite Heq, String.eqb_refl in Hu; discriminate.
Qed.

Lemma wf_store_usernames (s : store) :
  wf_storeb s = true -> NoDup (usernames s).
Proof.
  unfold wf_storeb; rewrite !andb_true_iff; intros [[[_ H] _] _].
  apply nodupb_NoDup; exact H.
Qed.

Lemma add_user_when_absent (e : env) (s : store) :
  memb "rishabh" (usernames s) = false -> memb (uuid4 e) (user_ids s) = false ->
  handle e add_user_request s
  = (Ok (Text "User rishabh added."), mkStore (users s ++ [new_rishabh e]) (posts s)).
Proof.
  intros Hno Hfresh.
  unfold handle, add_user_request; simpl.
  unfold add_user, bind, get_store, ret.
  rewrite (first_user_by_username_none s "rishabh" Hno).
  unfold commit_user; simpl; rewrite Hfresh, Hno; reflexivity.
Qed.

(** C2: [GET /add-user] twice in succession, from any store meeting the
    table constraints (and a first generated uuid not already a [User]
    id), leaves exactly one [User] named "rishabh"; the second answer is
    "User already exists."; and when the store had no "rishabh" the
    first answer is "User rishabh added.", so the two answers differ. *)
Theorem add_user_twice (e1 e2 : env) (s : store)
  (Hwf : wf_storeb s = true)
  (Hfresh : memb (uuid4 e1) (user_ids s) = false) :
  count_username (snd (handle e2 add_user_request (snd (handle e1 add_user_request s))))
                 "rishabh" = 1
  /\ (memb "rishabh" (usernames s) = false ->
      fst (handle e1 add_user_request s) = Ok (Text "User rishabh added.")
      /\ fst (handle e1 add_user_request s)
         <> fst (handle e2 add_user_request (snd (handle e1 add_user_request s))))
  /\ fst (handle e2 add_user_request (snd (handle e1 add_user_request s)))
     = Ok (Text "User already exists.").
Proof.
  destruct (memb "rishabh" (usernames s)) eqn:Hr.
  - rewrite (add_user_when_present e1 s Hr); simpl.
    rewrite (add_user_when_present e2 s Hr); simpl.
    split; [| split; [discriminate | reflexivity]].
    apply count_username_unique; [apply wf_store_usernames; exact Hwf |].
    apply memb_In; exact Hr.
  - rewrite (add_user_when_absent e1 s Hr Hfresh); simpl.
    assert (Hr1 : memb "rishabh" (usernames (mkStore (users s ++ [new_rishabh e1]) (posts s)))
                  = true).
    { apply memb_In; unfold usernames; simpl.
      rewrite map_app; apply in_or_app; right; left; reflexivity. }
    rewrite (add_user_when_present e2 _ Hr1); simpl.
    split; [| split; [split; [reflexivity | discriminate] | reflexivity]].
    unfold count_username; simpl.
    rewrite filter_app, count_username_absent; [reflexivity |].
    apply memb_false; exact Hr.
Qed.

Lemma add_user_twice_witness :
  count_username (snd (handle env1 add_user_request
                         (snd (handle env0 add_user_request empty_store)))) "rishabh" = 1
  /\ fst (handle env1 add_user_request (snd (handle env0 add_user_request empty_store)))
     = Ok (Text "User already exists.").
Proof.
  destruct (add_user_twice env0 env1 empty_store eq_refl eq_refl) as [H1 [_ H3]].
  split; [exact H1 | exact H3].
Defined.

Lemma NoDup_map_same (f : User -> string) (l : list User) (x y : User) :
  NoDup (map f l) -> In x l -> In y l -> f x = f y -> x = y.
Proof.
  induction l as [|z l IH]; simpl; intros Hnd Hx Hy Hf; [contradiction |].
  inversion Hnd as [|a b Hnotin Hnd']; subst.
  destruct Hx as [<- | Hx], Hy as [<- | Hy]; auto.
  - exfalso; apply Hnotin; rewrite Hf; apply in_map; exact Hy.
  - exfalso; apply Hnotin; rewrite <- Hf; apply in_map; exact Hx.
Qed.

Lemma wf_store_parts (s : store) :
  wf_storeb s = true ->
  NoDup (user_ids s) /\ NoDup (usernames s) /\ NoDup (post_ids s)
  /\ forall p, In p (posts s) -> In (user_id p) (user_ids s).
Proof.
  unfold wf_storeb; rewrite !andb_true_iff, !nodupb_NoDup, forallb_forall.
  intros [[[H1 H2] H3] H4]; repeat split; auto.
  intros p Hp; apply memb_In; auto.
Qed.

(** C3, as stated, fails: [Post.query.join(User)] is an inner join, so
    a [Post] whose [user_id] references no [User] is left out of the
    listing of [GET /]. *)
Lemma index_orphan_post_counterexample :
  ~ (forall p, In p (posts orphan_store) -> exists u, In (p, u) (get_listing orphan_store)).
Proof.
  intros H.
  destruct (H orphan_post (or_introl eq_refl)) as [u Hu].
  vm_compute in Hu; contradiction.
Qed.

(** C3 (amended): [GET /] lists exactly the pairs of a [Post] and a
    [User] whose id is the post's [user_id]: no entry has an absent
    [User], and a [Post] whose [user_id] references no [User] is left
    out.  In a store meeting the table constraints (every [user_id]
    references a [User], [User] ids unique) every [Post] is listed,
    paired with its one owning [User]. *)
Theorem index_lists_joined_posts (s : store) :
  (forall p u, In (p, u) (get_listing s)
               <-> In p (posts s) /\ In u (users s) /\ user_id_of u = user_id p)
  /\ (wf_storeb s = true ->
      forall p, In p (posts s) ->
      exists u, In (p, u) (get_listing s)
                /\ forall u', In (p, u') (get_listing s) -> u' = u).
Proof.
  assert (Hjoin : forall p u, In (p, u) (get_listing s)
                  <-> In p (posts s) /\ In u (users s) /\ user_id_of u = user_id p)
    by (intros p u; apply join_posts_users_In).
  split; [exact Hjoin |].
  intros Hwf p Hp.
  destruct (wf_store_parts s Hwf) as [Hids [_ [_ Hfk]]].
  pose proof (Hfk p Hp) as Hown; unfold user_ids in Hown.
  apply in_map_iff in Hown as [u [Hu Hin]].
  exists u; split; [apply Hjoin; auto |].
  intros u' Hu'; apply Hjoin in Hu' as [_ [Hin' Hid']].
  apply (NoDup_map_same user_id_of (users s)); auto; congruence.
Qed.

Lemma index_lists_joined_posts_witness :
  exists u, In (owned_post, u) (get_listing owned_store)
            /\ forall u', In (owned_post, u') (get_listing owned_store) -> u' = u.
Proof.
  apply (proj2 (index_lists_joined_posts owned_store)); [reflexivity |].
  left; reflexivity.
Defined.

(** The table constraints are an invariant of the application: the
    empty store meets them and no request breaks them, so every store
    the application reaches meets them. *)
Lemma wf_store_intro (s : store) :
  NoDup (user_ids s) -> NoDup (usernames s) -> NoDup (post_ids s) ->
  (forall p, In p (posts s) -> In (user_id p) (user_ids s)) ->
  wf_storeb s = true.
Proof.
  intros H1 H2 H3 H4; unfold wf_storeb.
  rewrite !andb_true_iff, !nodupb_NoDup, forallb_forall.
  repeat split; auto.
  intros p Hp; apply memb_In; auto.
Qed.

Lemma NoDup_snoc (l : list string) (x : string) :
  NoDup l -> ~ In x l -> NoDup (l ++ [x]).
Proof.
  intros Hl Hx; apply NoDup_app; auto using NoDup_cons, NoDup_nil.
  intros a Ha [<- | []]; contradiction.
Qed.

Lemma commit_user_wf (u : User) (s : store) :
  wf_storeb s = true -> wf_storeb (snd (commit_user u s)) = true.
Proof.
  intros Hwf; unfold commit_user.
  destruct (memb (user_id_of u) (user_ids s)) eqn:Hid; [exact Hwf |].
  destruct (memb (username u) (usernames s)) eqn:Hn; [exact Hwf |].
  simpl; destruct (wf_store_parts s Hwf) as [H1 [H2 [H3 H4]]].
  apply memb_false in Hid, Hn.
  apply wf_store_intro; unfold user_ids, usernames, post_ids in *; simpl;
    rewrite ?map_app; simpl.
  - apply NoDup_snoc; assumption.
  - apply NoDup_snoc; assumption.
  - exact H3.
  - intros p Hp; apply in_or_app; left; apply H4; exact Hp.
Qed.

Lemma commit_post_wf (p : Post) (s : store) :
  wf_storeb s = true -> wf_storeb (snd (commit_post p s)) = true.
Proof.
  intros Hwf; unfold commit_post.
  destruct (memb (post_id p) (post_ids s)) eqn:Hid; [exact Hwf |].
  destruct (memb (user_id p) (user_ids s)) eqn:Hown; [| exact Hwf].
  simpl; destruct (wf_store_parts s Hwf) as [H1 [H2 [H3 H4]]].
  apply memb_false in Hid; apply memb_In in Hown.
  apply wf_store_intro; unfold user_ids, usernames, post_ids in *; simpl;
    rewrite ?map_app; simpl.
  - exact H1.
  - exact H2.
  - apply NoDup_snoc; assumption.
  - intros q Hq; apply in_app_or in Hq as [Hq | [<- | []]]; auto.
Qed.

Lemma empty_store_wf : wf_storeb empty_store = true.
Proof. reflexivity. Qed.

(** No request breaks the table constraints. *)
Lemma handle_preserves_wf (e : env) (r : request) (s : store) :
  wf_storeb s = true -> wf_storeb (snd (handle e r s)) = true.
Proof.
  intros Hwf.
  destruct r as [m path form]; unfold handle; simpl.
  destruct (String.eqb path "/"); [destruct m; exact Hwf |].
  destruct (String.eqb path "/add-post").
  - destruct m; [exact Hwf |].
    unfold add_post, bind, ret.
    destruct (request_form form "title" s) as [[t|er] s1] eqn:Ht;
      pose proof (request_form_store form "title" s) as Hs1;
      rewrite Ht in Hs1; simpl in Hs1; subst s1; [| exact Hwf].
    destruct (request_form form "content" s) as [[c|er] s2] eqn:Hc;
      pose proof (request_form_store form "content" s) as Hs2;
      rewrite Hc in Hs2; simpl in Hs2; subst s2; [| exact Hwf].
    pose proof (commit_post_wf
                  (mkPost (uuid4 e) hardcoded_user_id t c (today e)) s Hwf) as Hx.
    destruct (commit_post _ s) as [[[]|er] s3]; exact Hx.
  - destruct (String.eqb path "/add-user"); [| exact Hwf].
    destruct m; [| exact Hwf].
    unfold add_user, bind, ret, get_store.
    destruct (first_user_by_username s "rishabh"); [exact Hwf |].
    pose proof (commit_user_wf
                  (mkUser (uuid4 e) "rishabh" "rishabh@example.com") s Hwf) as Hx.
    destruct (commit_user _ s) as [[[]|er] s3]; exact Hx.
Qed.

Lemma handle_preserves_wf_witness :
  wf_storeb (snd (handle env_owner add_user_request empty_store)) = true.
Proof. apply handle_preserves_wf; reflexivity. Defined.

(** ** Every outcome of a request

    A request either fails and leaves the store as it was, or is one
    of the six successful paths of the three routes. *)
Lemma memb_usernames_first_user (s : store) (name : string) :
  memb name (usernames s) = false <-> first_user_by_username s name = None.
Proof.
  split; [apply first_user_by_username_none |].
  intros Hnone; destruct (memb name (usernames s)) eqn:Hm; [| reflexivity].
  destruct (first_user_by_username_some s name Hm) as [u Hu]; congruence.
Qed.

Lemma handle_outcome (e : env) (r : request) (s : store) :
  (exists er, handle e r s = (Err er, s))
  \/ (handle e r s = (Ok (RenderIndex (join_posts_users s)), s)
      /\ req_path r = "/" /\ req_method r = GET)
  \/ (handle e r s = (Ok RenderAddPost, s)
      /\ req_path r = "/add-post" /\ req_method r = GET)
  \/ (handle e r s = (Ok (Text "User already exists."), s)
      /\ req_path r = "/add-user" /\ req_method r = GET
      /\ memb "rishabh" (usernames s) = true)
  \/ (handle e r s = (Ok (Text "User rishabh added."),
                      mkStore (users s ++ [new_rishabh e]) (posts s))
      /\ req_path r = "/add-user" /\ req_method r = GET
      /\ memb "rishabh" (usernames s) = false
      /\ memb (uuid4 e) (user_ids s) = false)
  \/ (exists t c,
      handle e r s = (Ok (Redirect "/"),
                      mkStore (users s)
                        (posts s ++ [mkPost (uuid4 e) hardcoded_user_id t c (today e)]))
      /\ req_path r = "/add-post" /\ req_method r = POST
      /\ form_lookup (req_form r) "title" = Some t
      /\ form_lookup (req_form r) "content" = Some c
      /\ memb hardcoded_user_id (user_ids s) = true
      /\ memb (uuid4 e) (post_ids s) = false).
Proof.
  destruct r as [m path form]; simpl.
  destruct (String.eqb path "/") eqn:H1.
  { apply String.eqb_eq in H1; subst path.
    destruct m; [right; left; repeat split | left; eexists; reflexivity]. }
  destruct (String.eqb path "/add-post") eqn:H2.
  { apply String.eqb_eq in H2; subst path.
    destruct m; [right; right; left; repeat split |].
    destruct (form_lookup form "title") as [t|] eqn:Ht;
      [| left; destruct (add_post_missing_field e s form) as [k Hk];
         [left; exact Ht | exists (BadRequestKeyError k); exact Hk]].
    destruct (form_lookup form "content") as [c|] eqn:Hc;
      [| left; destruct (add_post_missing_field e s form) as [k Hk];
         [right; exact Hc | exists (BadRequestKeyError k); exact Hk]].
    pose proof (add_post_fields_present e s form t c Ht Hc) as Hp.
    unfold post_request in Hp.
    destruct (memb (uuid4 e) (post_ids s)) eqn:Hf; [left; eexists; exact Hp |].
    destruct (memb hardcoded_user_id (user_ids s)) eqn:Ho; [| left; eexists; exact Hp].
    do 5 right; exists t, c; repeat split; assumption. }
  destruct (String.eqb path "/add-user") eqn:H3.
  { apply String.eqb_eq in H3; subst path.
    destruct m; [| left; eexists; reflexivity].
    destruct (memb "rishabh" (usernames s)) eqn:Hr.
    - do 3 right; left; repeat split; auto.
      exact (add_user_when_present e s Hr).
    - destruct (memb (uuid4 e) (user_ids s)) eqn:Hf.
      + left; exists StorageError.
        unfold handle; simpl; unfold add_user, bind, get_store, ret.
        rewrite (proj1 (memb_usernames_first_user s "rishabh") Hr).
        unfold commit_user; simpl; rewrite Hf; reflexivity.
      + do 4 right; left; repeat split; auto.
        exact (add_user_when_absent e s Hr Hf). }
  left; exists NotFound; unfold handle; simpl; rewrite H1, H2, H3; reflexivity.
Qed.

(** ** Further properties of the handlers *)

(** Any failing request leaves the store exactly as it was: a missing
    form field, a refused commit, an unknown route or method. *)
Theorem handle_error_no_effect (e : env) (r : request) (s : store) (er : error)
  (Herr : fst (handle e r s) = Err er) :
  snd (handle e r s) = s.
Proof.
  destruct (handle_outcome e r s) as
    [[er' H] | [[H _] | [[H _] | [[H _] | [[H _] | [t [c [H _]]]]]]]];
    rewrite H in *; simpl in *; try discriminate; reflexivity.
Qed.

Lemma handle_error_no_effect_witness :
  fst (handle env0 (post_request hello_world_form) empty_store) = Err StorageError
  /\ snd (handle env0 (post_request hello_world_form) empty_store) = empty_store.
Proof.
  split; [reflexivity |].
  apply (handle_error_no_effect env0 _ empty_store StorageError); reflexivity.
Defined.

(** Among the routes of [app.py], a redirect is only ever answered to a
    [POST /add-post] carrying [title] and [content], always to "/", and
    only once exactly one post with those values, the hard-coded owner,
    the generated id and today's date has been appended. *)
Theorem handle_redirect_only_after_post (e : env) (r : request) (s : store) (loc : string)
  (Hroute : app_route_request r = true)
  (Hredir : fst (handle e r s) = Ok (Redirect loc)) :
  loc = "/" /\ req_path r = "/add-post" /\ req_method r = POST
  /\ exists t c,
       form_lookup (req_form r) "title" = Some t
       /\ form_lookup (req_form r) "content" = Some c
       /\ snd (handle e r s)
          = mkStore (users s) (posts s ++ [mkPost (uuid4 e) hardcoded_user_id t c (today e)]).
Proof.
  destruct (handle_outcome e r s) as
    [[er H] | [[H _] | [[H _] | [[H _] | [[H _] | [t [c [H [Hp [Hm [Ht [Hc _]]]]]]]]]]]];
    rewrite H in *; simpl in *; try discriminate.
  injection Hredir as <-; repeat split; auto.
  exists t, c; auto.
Qed.

Lemma handle_redirect_only_after_post_witness :
  exists t c,
    form_lookup hello_world_form "title" = Some t
    /\ form_lookup hello_world_form "content" = Some c
    /\ snd (handle env0 (post_request hello_world_form) owner_store)
       = mkStore (users owner_store)
           (posts owner_store ++ [mkPost (uuid4 env0) hardcoded_user_id t c (today env0)]).
Proof.
  apply (handle_redirect_only_after_post env0 (post_request hello_world_form) owner_store "/");
    reflexivity.
Defined.

(** The only plain-text answers come from [GET /add-user]: either
    "User already exists." with the store unchanged, when a "rishabh"
    exists, or "User rishabh added." once exactly that [User] (the
    generated id, email "rishabh@example.com") has been appended. *)
Theorem handle_text_responses (e : env) (r : request) (s : store) (b : string)
  (Htext : fst (handle e r s) = Ok (Text b)) :
  req_path r = "/add-user" /\ req_method r = GET
  /\ ((b = "User already exists." /\ memb "rishabh" (usernames s) = true
       /\ snd (handle e r s) = s)
      \/ (b = "User rishabh added." /\ memb "rishabh" (usernames s) = false
          /\ snd (handle e r s) = mkStore (users s ++ [new_rishabh e]) (posts s))).
Proof.
  destruct (handle_outcome e r s) as
    [[er H] | [[H _] | [[H _] | [[H [Hp [Hm Hr]]] | [[H [Hp [Hm [Hr _]]]] |
     [t [c [H _]]]]]]]];
    rewrite H in *; simpl in *; try discriminate;
    injection Htext as <-; repeat split; auto.
Qed.

Lemma handle_text_responses_witness :
  snd (handle env0 add_user_request empty_store)
  = mkStore (users empty_store ++ [new_rishabh env0]) (posts empty_store).
Proof.
  destruct (handle_text_responses env0 add_user_request empty_store "User rishabh added."
              eq_refl) as [_ [_ [[Hb _] | [_ [_ H]]]]].
  - discriminate Hb.
  - exact H.
Defined.

(** [POST /add-post] reads nothing from the form but the first [title]
    and the first [content]: two forms that agree on those behave the
    same, whatever other fields they carry. *)
Theorem add_post_reads_only_title_content (e : env) (s : store)
  (form1 form2 : list (string * string))
  (Ht : form_lookup form1 "title" = form_lookup form2 "title")
  (Hc : form_lookup form1 "content" = form_lookup form2 "content") :
  handle e (post_request form1) s = handle e (post_request form2) s.
Proof.
  unfold handle, post_request; simpl; unfold add_post, bind, request_form.
  rewrite Ht, Hc; reflexivity.
Qed.

Lemma add_post_reads_only_title_content_witness :
  handle env0 (post_request [("title", "Hello"); ("csrf", "x"); ("content", "World");
                             ("title", "Ignored")]) owner_store
  = handle env0 (post_request hello_world_form) owner_store.
Proof. apply add_post_reads_only_title_content; reflexivity. Defined.

Lemma run_cons (e : env) (r : request) (rest : list (env * request)) (s : store) :
  run ((e, r) :: rest) s
  = (fst (handle e r s) :: fst (run rest (snd (handle e r s))),
     snd (run rest (snd (handle e r s)))).
Proof.
  simpl; destruct (handle e r s) as [res s1]; simpl.
  destruct (run rest s1); reflexivity.
Qed.

Lemma handle_keeps_reachable_inv (e : env) (r : request) (s : store) :
  reachable_inv s -> reachable_inv (snd (handle e r s)).
Proof.
  unfold reachable_inv; intros [Hwf [Hown [Hlen Husers]]].
  pose proof (handle_preserves_wf e r s Hwf) as Hwf'.
  destruct (handle_outcome e r s) as
    [[er H] | [[H _] | [[H _] | [[H _] | [[H [_ [_ [Hr _]]]] | [t [c [H _]]]]]]]];
    rewrite H in *; simpl in *; try exact (conj Hwf (conj Hown (conj Hlen Husers))).
  - (* a new "rishabh": the store had no user at all before *)
    assert (Hnil : users s = []).
    { destruct (users s) as [|u us] eqn:Hus; [reflexivity | exfalso].
      destruct (Husers u (or_introl eq_refl)) as [Hn _].
      apply memb_false in Hr; apply Hr; unfold usernames; rewrite Hus; left; exact Hn. }
    rewrite Hnil in *; simpl; repeat split; auto.
    all: destruct H0 as [<- | []]; reflexivity.
  - split; [exact Hwf' |]; split; [| split; [exact Hlen | exact Husers]].
    intros p Hp; apply in_app_or in Hp as [Hp | [<- | []]]; auto.
Qed.

Lemma run_keeps_reachable_inv (steps : list (env * request)) (s : store) :
  reachable_inv s -> reachable_inv (snd (run steps s)).
Proof.
  revert s; induction steps as [|[e r] rest IH]; intros s Hs; [exact Hs |].
  rewrite run_cons; apply IH, handle_keeps_reachable_inv, Hs.
Qed.

Lemma empty_store_reachable_inv : reachable_inv empty_store.
Proof. repeat split; simpl; try contradiction; auto. Qed.

(** Every store reached from the empty store meets the table
    constraints: unique ids and username, no post with a dangling
    owner. *)
Theorem run_from_empty_wf (steps : list (env * request)) :
  wf_storeb (snd (run steps empty_store)) = true.
Proof. apply (run_keeps_reachable_inv steps empty_store empty_store_reachable_inv). Qed.

(** Every post the application ever stores is owned by the hard-coded
    user id 'aec92dd8-79dd-4b22-9deb-a2af00d568c8'. *)
Theorem run_from_empty_posts_owner (steps : list (env * request)) (p : Post)
  (Hp : In p (posts (snd (run steps empty_store)))) :
  user_id p = hardcoded_user_id.
Proof.
  exact (proj1 (proj2 (run_keeps_reachable_inv steps empty_store
                         empty_store_reachable_inv)) p Hp).
Qed.

Lemma run_from_empty_posts_owner_witness :
  In owner_run_post (posts (snd (run owner_run empty_store)))
  /\ user_id owner_run_post = hardcoded_user_id.
Proof.
  assert (H : In owner_run_post (posts (snd (run owner_run empty_store))))
    by (vm_compute; left; reflexivity).
  split; [exact H | exact (run_from_empty_posts_owner owner_run owner_run_post H)].
Defined.

(** In every store reached from the empty store there is at most one
    [User], and it is "rishabh" with email "rishabh@example.com". *)
Theorem run_from_empty_single_user (steps : list (env * request)) :
  length (users (snd (run steps empty_store))) <= 1
  /\ forall u, In u (users (snd (run steps empty_store))) ->
               username u = "rishabh" /\ email u = "rishabh@example.com".
Proof.
  destruct (run_keeps_reachable_inv steps empty_store empty_store_reachable_inv)
    as [_ [_ [Hlen Hu]]].
  split; [exact Hlen | exact Hu].
Qed.

Lemma run_from_empty_single_user_witness :
  username (new_rishabh env_owner) = "rishabh"
  /\ email (new_rishabh env_owner) = "rishabh@example.com".
Proof.
  apply (proj2 (run_from_empty_single_user owner_run)).
  vm_compute; left; reflexivity.
Defined.

Lemma listing_single_owner (s : store) (u : User) :
  users s = [u] -> (forall p, In p (posts s) -> user_id p = user_id_of u) ->
  get_listing s = map (fun p => (p, u)) (posts s).
Proof.
  intros Hus Hown; unfold get_listing, index, bind, get_store, ret; simpl.
  unfold join_posts_users; rewrite Hus.
  induction (posts s) as [|p ps IH]; [reflexivity |]; simpl.
  rewrite (Hown p (or_introl eq_refl)), String.eqb_refl; simpl.
  f_equal; apply IH; intros q Hq; apply Hown; right; exact Hq.
Qed.

(** In every store reached from the empty store, either there is no
    post and [GET /] lists nothing, or the one [User] holds the
    hard-coded owner id and [GET /] lists every stored post exactly
    once (in some order), each paired with that [User]. *)
Theorem run_from_empty_listing (steps : list (env * request)) :
  let s := snd (run steps empty_store) in
  (posts s = [] /\ get_listing s = [])
  \/ exists u, users s = [u] /\ user_id_of u = hardcoded_user_id
               /\ Permutation (get_listing s) (map (fun p => (p, u)) (posts s)).
Proof.
  intros s.
  destruct (run_keeps_reachable_inv steps empty_store empty_store_reachable_inv)
    as [Hwf [Hown [Hlen _]]]; fold s in Hwf, Hown, Hlen.
  destruct (posts s) as [|p ps] eqn:Hps.
  { left; split; [reflexivity |].
    unfold get_listing, index, bind, get_store, ret; simpl.
    unfold join_posts_users; rewrite Hps; reflexivity. }
  right.
  destruct (wf_store_parts s Hwf) as [_ [_ [_ Hfk]]].
  assert (Hp : In p (posts s)) by (rewrite Hps; left; reflexivity).
  pose proof (Hfk p Hp) as Hin; unfold user_ids in Hin.
  destruct (users s) as [|u [|u' us]] eqn:Hus; simpl in Hin, Hlen; [contradiction | | lia].
  destruct Hin as [Hid | []].
  exists u; split; [reflexivity |]; split.
  - rewrite Hid; apply Hown; left; reflexivity.
  - rewrite <- Hps, (listing_single_owner s u); [apply Permutation_refl | exact Hus |].
    intros q Hq; rewrite Hps in Hq; rewrite (Hown q Hq), Hid.
    symmetry; apply Hown; left; reflexivity.
Qed.

Lemma handle_counts (e : env) (r : request) (s : store) :
  length (posts (snd (handle e r s)))
  = length (posts s) + (if is_redirect (fst (handle e r s)) then 1 else 0)
  /\ length (users (snd (handle e r s)))
     = length (users s) + (if is_user_added (fst (handle e r s)) then 1 else 0).
Proof.
  destruct (handle_outcome e r s) as
    [[er H] | [[H _] | [[H _] | [[H _] | [[H _] | [t [c [H _]]]]]]]];
    rewrite H; simpl; rewrite ?length_app; simpl; split; lia.
Qed.

(** Over any run of requests to the routes of [app.py], the posts added
    are exactly as many as the requests answered by a redirect, and the users added exactly as many as the
    requests answered "User rishabh added.". *)
Theorem run_counts (steps : list (env * request)) (s : store)
  (Hroutes : forallb (fun step => app_route_request (snd step)) steps = true) :
  length (posts (snd (run steps s)))
  = length (posts s) + count_true is_redirect (fst (run steps s))
  /\ length (users (snd (run steps s)))
     = length (users s) + count_true is_user_added (fst (run steps s)).
Proof.
  revert Hroutes s; induction steps as [|[e r] rest IH]; intros Hroutes s;
    [unfold count_true; simpl; split; lia |].
  simpl in Hroutes; apply andb_true_iff in Hroutes as [_ Hrest].
  rewrite run_cons; simpl fst; simpl snd.
  destruct (IH Hrest (snd (handle e r s))) as [Hp Hu].
  destruct (handle_counts e r s) as [Hp1 Hu1].
  unfold count_true in *; simpl.
  destruct (is_redirect (fst (handle e r s))), (is_user_added (fst (handle e r s)));
    simpl; split; lia.
Qed.

Lemma run_counts_witness :
  length (posts (snd (run owner_run empty_store)))
  = length (posts empty_store) + count_true is_redirect (fst (run owner_run empty_store)).
Proof. apply (run_counts owner_run empty_store); reflexivity. Defined.
